(** * Fine-tuning FLAN-T5 on SageMaker: the lab 2 notebook

    A shallow embedding of [lab_2/fine_tune_t5.ipynb].  The notebook is a
    straight-line script of calls into the SageMaker SDK, boto3, pandas,
    [tarfile], [random] and a few shell escapes.  It is embedded as a
    program over three families of primitive steps:

    - external calls, answered by an abstract environment, which may raise;
    - shell escapes ([!cmd]), answered by the environment, which never raise;
    - local file-system operations, given a concrete semantics here.

    Running a program threads the local file system and the environment and
    records the chronological list of steps together with their answers. *)

From Stdlib Require Import ZArith Ascii.
From stdpp Require Import gmap strings list fin_maps sorting.

Set Warnings "-register-all".

Open Scope string_scope.
Open Scope Z_scope.

(** ** Python values and exceptions *)

(** A key used to index a Python container. *)
Inductive pykey :=
| KStr (s : string)
| KInt (i : Z).

(** The exceptions that the notebook's own expressions can raise, and the
    exceptions coming out of the external libraries, which stay opaque. *)
Inductive exn :=
| KeyError (k : pykey)
| IndexError
| TypeError
| FileNotFoundError (path : string)
| ReadError (path : string)
| CalledProcessError (code : Z)
| ExternalError (origin : string) (message : string).

Definition result (A : Type) : Type := exn + A.

Definition ok {A} (a : A) : result A := inr a.
Definition raise {A} (e : exn) : result A := inl e.

Definition rbind {A B} (r : result A) (f : A -> result B) : result B :=
  match r with
  | inl e => inl e
  | inr a => f a
  end.

(** ** JSON documents, as the [dict]/[list] values handed to the predictor *)

Inductive json :=
| JNull
| JBool (b : bool)
| JNum (n : Z)
| JStr (s : string)
| JArr (items : list json)
| JObj (fields : list (string * json)).

Fixpoint assoc {A} (k : string) (l : list (string * A)) : option A :=
  match l with
  | [] => None
  | (k', v) :: l' => if String.eqb k k' then Some v else assoc k l'
  end.

(** [v[k]] for a string key [k]: only a [dict] answers. *)
Definition getitem_key (v : json) (k : string) : result json :=
  match v with
  | JObj fields =>
      match assoc k fields with
      | Some x => ok x
      | None => raise (KeyError (KStr k))
      end
  | _ => raise TypeError
  end.

(** [v[i]] for an integer [i]: a [list] answers by position (negative
    positions count from the end), a [str] answers with one character, a
    [dict] has no integer keys here. *)
Definition py_index (len : nat) (i : Z) : option nat :=
  if (0 <=? i) && (i <? Z.of_nat len) then Some (Z.to_nat i)
  else if (i <? 0) && (- Z.of_nat len <=? i) then Some (Z.to_nat (Z.of_nat len + i))
  else None.

Definition getitem_idx (v : json) (i : Z) : result json :=
  match v with
  | JArr items =>
      match py_index (length items) i with
      | Some n =>
          match items !! n with
          | Some x => ok x
          | None => raise IndexError
          end
      | None => raise IndexError
      end
  | JStr s =>
      match py_index (String.length s) i with
      | Some n =>
          match String.get n s with
          | Some c => ok (JStr (String c EmptyString))
          | None => raise IndexError
          end
      | None => raise IndexError
      end
  | JObj _ => raise (KeyError (KInt i))
  | _ => raise TypeError
  end.

(** ** Tables read by pandas *)

(** A [Series] over the default [RangeIndex]: position [i] carries label [i]. *)
Abbreviation Series := (list string).

(** A [DataFrame] with a [RangeIndex] of [df_index] rows and named columns. *)
Record DataFrame := mkDataFrame {
  df_index : nat;
  df_data : gmap string (list string)
}.

(** [df.shape] *)
Definition shape (df : DataFrame) : nat * nat := (df_index df, size (df_data df)).

(** [df[col]] *)
Definition df_getitem (df : DataFrame) (col : string) : result Series :=
  match df_data df !! col with
  | Some s => ok s
  | None => raise (KeyError (KStr col))
  end.

(** [series[i]] for an integer [i]: a lookup by label in the [RangeIndex]. *)
Definition series_getitem (s : Series) (i : Z) : result string :=
  if 0 <=? i then
    match s !! Z.to_nat i with
    | Some x => ok x
    | None => raise (KeyError (KInt i))
    end
  else raise (KeyError (KInt i)).

(** [df.head()]: the first five rows. *)
Definition head (df : DataFrame) : DataFrame :=
  {| df_index := Nat.min 5 (df_index df);
     df_data := take 5 <$> df_data df |}.

(** A table is well formed when every column has one cell per index entry. *)
Definition df_wf (df : DataFrame) : Prop :=
  forall col s, df_data df !! col = Some s -> length s = df_index df.

(** ** Paths *)

Definition is_sep (c : ascii) : bool := Ascii.eqb c "/"%char.

(** [strip_sep l] drops the separators at the front of [l]. *)
Fixpoint strip_sep (l : list ascii) : list ascii :=
  match l with
  | [] => []
  | c :: l' => if is_sep c then strip_sep l' else l
  end.

(** [after_sep l] drops the characters of [l] up to its first separator,
    which is kept; on a reversed path this is the head up to and including
    the last separator. *)
Fixpoint after_sep (l : list ascii) : list ascii :=
  match l with
  | [] => []
  | c :: l' => if is_sep c then l else after_sep l'
  end.

(** [before_sep l] is the part of [l] before its first separator. *)
Fixpoint before_sep (l : list ascii) : list ascii :=
  match l with
  | [] => []
  | c :: l' => if is_sep c then [] else c :: before_sep l'
  end.

(** [os.path.dirname]: the head of the path up to its last separator, with
    the trailing separators removed unless the head consists of separators
    only. *)
Definition dirname (p : string) : string :=
  let head := after_sep (rev (String.list_ascii_of_string p)) in
  if forallb is_sep head then String.string_of_list_ascii (rev head)
  else String.string_of_list_ascii (rev (strip_sep head)).

(** [os.path.basename]: what follows the last separator. *)
Definition basename (p : string) : string :=
  String.string_of_list_ascii (rev (before_sep (rev (String.list_ascii_of_string p)))).

(** [str.replace(old, new)]: the occurrences of [old], scanned from the
    left and not overlapping, are replaced by [new].  An empty [old] matches
    before every character and at the end. *)
Fixpoint replace_from (fuel : nat) (old new s : string) : string :=
  match fuel with
  | O => s
  | S fuel' =>
      if String.prefix old s
      then new ++ replace_from fuel' old new
                    (String.substring (String.length old)
                       (String.length s - String.length old)%nat s)
      else match s with
           | EmptyString => EmptyString
           | String c s' => String c (replace_from fuel' old new s')
           end
  end.

Fixpoint intersperse (new s : string) : string :=
  match s with
  | EmptyString => new
  | String c s' => new ++ String c (intersperse new s')
  end.

Definition replace (old new s : string) : string :=
  match old with
  | EmptyString => intersperse new s
  | _ => replace_from (String.length s) old new s
  end.

(** The line feed and the double quote, for the texts the notebook builds. *)
Definition nl : string := String (ascii_of_nat 10) EmptyString.
Definition dq : string := String (ascii_of_nat 34) EmptyString.

(** ** The local file system *)

(** What lives at a path: a directory, a plain file, or a [.tar.gz] archive
    with its members in archive order.  Paths are kept as written (relative
    to the notebook's directory); they are not normalised. *)
Inductive node :=
| Dir
| Raw (text : string)
| Tarball (members : list (string * node)).

Abbreviation fs := (gmap string node).

(** [tar.getnames()] *)
Definition getnames (members : list (string * node)) : list string :=
  members.*1.

(** [tar.extractall(dest)]: the members are written below [dest] in archive
    order, a later member replacing an earlier one of the same name.  Member
    names are taken as relative paths, joined to [dest] as they are. *)
Definition extractall (dest : string) (members : list (string * node)) (f : fs) : fs :=
  foldl (fun acc m => <[dest ++ m.1 := m.2]> acc) f members.

(** [strip_prefix pre s]: what follows [pre] in [s], if [s] starts with it. *)
Fixpoint strip_prefix (pre s : string) : option string :=
  match pre, s with
  | EmptyString, _ => Some s
  | String a pre', String b s' => if Ascii.eqb a b then strip_prefix pre' s' else None
  | String _ _, EmptyString => None
  end.

(** A path below [cwd ++ dir], named relative to [cwd]. *)
Definition member_of (cwd dir : string) (entry : string * node) : option (string * node) :=
  match strip_prefix cwd entry.1 with
  | Some rel => if String.prefix dir rel then Some (rel, entry.2) else None
  | None => None
  end.

(** [cd cwd; tar czvf archive dir]: the directory entry of [dir] followed by
    everything stored below it, named relative to [cwd]. *)
Definition tar_members (cwd dir : string) (f : fs) : list (string * node) :=
  (dir, Dir) :: omap (member_of cwd dir) (map_to_list f).

Definition tar_create (cwd archive dir : string) (f : fs) : fs :=
  <[cwd ++ archive := Tarball (tar_members cwd dir f)]> f.

(** The local operations of the notebook. *)
Inductive local_op :=
| TarOpen (path : string)
| ExtractAll (members : list (string * node)) (dest : string)
| WriteText (path text : string)
| TarCreate (cwd archive dir : string)
| Mv (src dst : string).

Definition local_ret (o : local_op) : Type :=
  match o with
  | TarOpen _ => list (string * node)
  | _ => unit
  end.

Definition local_sem (o : local_op) (f : fs) : result (local_ret o * fs) :=
  match o return result (local_ret o * fs) with
  | TarOpen path =>
      match f !! path with
      | Some (Tarball members) => ok (members, f)
      | Some _ => raise (ReadError path)
      | None => raise (FileNotFoundError path)
      end
  | ExtractAll members dest => ok (tt, extractall dest members f)
  | WriteText path text => ok (tt, <[path := Raw text]> f)
  | TarCreate cwd archive dir => ok (tt, tar_create cwd archive dir f)
  | Mv src dst =>
      match f !! src with
      | Some n => ok (tt, <[dst := n]> (delete src f))
      | None => raise (CalledProcessError 1)
      end
  end.

(** ** The objects of the SageMaker SDK

    The constructors [TensorBoardOutputConfig], [PyTorch], [Model] and
    [Predictor] only record their arguments; the service is reached by the
    calls made on the objects afterwards. *)

Record Session := mkSession { _region_name : string }.

Inductive hp_value :=
| HStr (s : string)
| HInt (n : Z)
| HFloat (mantissa exponent : Z).

Record TensorBoardOutputConfig := mkTensorBoard { s3_output_path : string }.

Record Estimator := mkEstimator {
  source_dir : string;
  entry_point : string;
  est_role : string;
  instance_count : Z;
  est_instance_type : string;
  framework_version : string;
  py_version : string;
  disable_profiler : bool;
  tensorboard_output_config : TensorBoardOutputConfig;
  hyperparameters : gmap string hp_value;
  keep_alive_period_in_seconds : Z
}.

Record Model := mkModel {
  image_uri : string;
  model_data : string;
  model_role : string
}.

Inductive serializer_kind := JSONSerializer.
Inductive deserializer_kind := JSONDeserializer.

Record Predictor := mkPredictor {
  endpoint_name : string;
  sagemaker_session : Session;
  serializer : serializer_kind;
  deserializer : deserializer_kind
}.

(** ** Steps answered by the environment *)

(** Calls into the SDKs and libraries.  Each may raise. *)
Inductive ext_call :=
| GetExecutionRole
| NewSession
| DefaultBucket (sess : Session)
| AccountId (sess : Session)
| Boto3Client (service : string)
| ReadJson (path : string) (lines : bool)
| UploadData (sess : Session) (path bucket key_prefix : string)
| Fit (est : Estimator) (inputs : list (string * string)) (wait : bool)
| OsGetcwd
| OsEnviron (var : string)
| JobWait (job : string) (logs : string)
| Deploy (m : Model) (initial_instance_count : Z) (instance_type endpoint : string)
| NameFromBase (base : string)
| Randint (a b : Z)
| InvokeEndpoint (endpoint : string) (body : json)
| DeleteEndpoint (endpoint : string).

Definition ext_ret (c : ext_call) : Type :=
  match c with
  | GetExecutionRole => string
  | NewSession => Session
  | DefaultBucket _ => string
  | AccountId _ => string
  | Boto3Client _ => unit
  | ReadJson _ _ => DataFrame
  | UploadData _ _ _ _ => string
  | Fit _ _ _ => string
  | OsGetcwd => string
  | OsEnviron _ => string
  | JobWait _ _ => unit
  | Deploy _ _ _ _ => unit
  | NameFromBase _ => string
  | Randint _ _ => Z
  | InvokeEndpoint _ _ => json
  | DeleteEndpoint _ => unit
  end.

(** Shell escapes.  A failing command prints its error and the notebook goes
    on: the answer only tells what the command left on disk. *)
Inductive shell_cmd :=
| Wget (url dest : string)
| AwsS3CpModelData (job : string) (dst : string).

Definition shell_ret (c : shell_cmd) : Type :=
  match c with
  | Wget _ _ => option string
  | AwsS3CpModelData _ _ => option (string * node)
  end.

(** [aws s3 cp uri dst]: a destination that is a directory receives the
    object under the last component of its key. *)
Definition cp_target (uri dst : string) : string :=
  if String.eqb dst "." then basename uri else dst ++ "/" ++ basename uri.

Definition shell_effect (c : shell_cmd) : shell_ret c -> fs -> fs :=
  match c return shell_ret c -> fs -> fs with
  | Wget _ dest => fun r f =>
      match r with
      | Some text => <[dest := Raw text]> f
      | None => f
      end
  | AwsS3CpModelData _ dst => fun r f =>
      match r with
      | Some (uri, obj) => <[cp_target uri dst := obj]> f
      | None => f
      end
  end.

(** What a cell displays. *)
Inductive shown :=
| ShownText (label text : string)
| ShownShape (label : string) (s : nat * nat)
| ShownTable (df : DataFrame)
| ShownValue (label : string) (v : json)
| ShownHtml (html : string).

(** ** Programs *)

Inductive prog (R : Type) : Type :=
| Ret (r : R)
| Raise (e : exn)
| Ext (c : ext_call) (k : ext_ret c -> prog R)
| Shell (c : shell_cmd) (k : shell_ret c -> prog R)
| Local (o : local_op) (k : local_ret o -> prog R)
| Show (d : shown) (k : prog R)
| Try (A : Type) (body : prog A) (handler : exn -> prog A) (k : A -> prog R).

Arguments Ret {R} r.
Arguments Raise {R} e.
Arguments Ext {R} c k.
Arguments Shell {R} c k.
Arguments Local {R} o k.
Arguments Show {R} d k.
Arguments Try {R A} body handler k.

Fixpoint bind {A B} (p : prog A) (f : A -> prog B) : prog B :=
  match p with
  | Ret a => f a
  | Raise e => Raise e
  | Ext c k => Ext c (fun x => bind (k x) f)
  | Shell c k => Shell c (fun x => bind (k x) f)
  | Local o k => Local o (fun x => bind (k x) f)
  | Show d k => Show d (bind k f)
  | Try body h k => Try body h (fun x => bind (k x) f)
  end.

Definition ext (c : ext_call) : prog (ext_ret c) := Ext c Ret.
Definition shell (c : shell_cmd) : prog (shell_ret c) := Shell c Ret.
Definition local (o : local_op) : prog (local_ret o) := Local o Ret.
Definition display (d : shown) : prog unit := Show d (Ret tt).

(** An expression of the notebook itself, which evaluates or raises. *)
Definition lift {A} (r : result A) : prog A :=
  match r with
  | inl e => Raise e
  | inr a => Ret a
  end.

Declare Scope prog_scope.
Delimit Scope prog_scope with prog.
Notation "x <- p ;; q" := (bind p (fun x => q))
  (at level 100, p at next level, right associativity) : prog_scope.
Notation "p ;;; q" := (bind p (fun _ => q))
  (at level 100, right associativity) : prog_scope.

(** The steps of a run, in the order they happened.  Each carries the local
    file system as it was when the step was issued, and the answer. *)
Inductive event :=
| EvExt (f : fs) (c : ext_call) (r : result (ext_ret c))
| EvShell (f : fs) (c : shell_cmd) (r : shell_ret c)
| EvLocal (f : fs) (o : local_op) (r : option exn)
| EvShow (d : shown).

Record outcome (W R : Type) := mkOutcome {
  returned : result R;
  final_fs : fs;
  final_world : W;
  trace : list event
}.

Arguments mkOutcome {W R}.
Arguments returned {W R}.
Arguments final_fs {W R}.
Arguments final_world {W R}.
Arguments trace {W R}.

Definition after {W R} (ev : list event) (o : outcome W R) : outcome W R :=
  mkOutcome (returned o) (final_fs o) (final_world o) (ev ++ trace o).

Section Run.

(** The environment: the cloud account, the network, the clock and the
    random generator behind the calls.  It reads the local files (to
    upload or parse them) and never writes them. *)
Context {W : Type}.
Variable ext_handle : forall c : ext_call, fs -> W -> result (ext_ret c) * W.
Variable shell_handle : forall c : shell_cmd, fs -> W -> shell_ret c * W.

Fixpoint run {R} (p : prog R) (f : fs) (w : W) : outcome W R :=
  match p with
  | Ret r => mkOutcome (inr r) f w []
  | Raise e => mkOutcome (inl e) f w []
  | Ext c k =>
      match ext_handle c f w with
      | (inl e, w') => mkOutcome (inl e) f w' [EvExt f c (inl e)]
      | (inr x, w') => after [EvExt f c (inr x)] (run (k x) f w')
      end
  | Shell c k =>
      match shell_handle c f w with
      | (r, w') => after [EvShell f c r] (run (k r) (shell_effect c r f) w')
      end
  | Local o k =>
      match local_sem o f with
      | inl e => mkOutcome (inl e) f w [EvLocal f o (Some e)]
      | inr (x, f') => after [EvLocal f o None] (run (k x) f' w)
      end
  | Show d k => after [EvShow d] (run k f w)
  | Try body h k =>
      let o1 := run body f w in
      match returned o1 with
      | inr a => after (trace o1) (run (k a) (final_fs o1) (final_world o1))
      | inl e =>
          let o2 := run (h e) (final_fs o1) (final_world o1) in
          match returned o2 with
          | inr a =>
              after (trace o1 ++ trace o2)
                (run (k a) (final_fs o2) (final_world o2))
          | inl e' =>
              mkOutcome (inl e') (final_fs o2) (final_world o2)
                (trace o1 ++ trace o2)
          end
      end
  end.

End Run.

(** ** The notebook *)

Module Notebook.

Open Scope prog_scope.

Definition s3_key_prefix : string := "flan-t5-finetune-for-dialogue".

Definition train_url : string :=
  "https://raw.githubusercontent.com/cylnlp/dialogsum/main/DialogSum_Data/dialogsum.train.jsonl".
Definition test_url : string :=
  "https://raw.githubusercontent.com/cylnlp/dialogsum/main/DialogSum_Data/dialogsum.test.jsonl".
Definition train_path : string := "data/dialogsum.train.jsonl".
Definition test_path : string := "data/dialogsum.test.jsonl".

(** The [hyperparameters] argument of the estimator. *)
Definition notebook_hyperparameters : gmap string hp_value :=
  <["training_script" := HStr "train.py"]>
  (<["config_file" := HStr "ds_zero3.yaml"]>
  (<["lr" := HFloat 3 (-3)]>
  (<["batch_size" := HInt 2]>
  (<["subsample" := HInt 50]>
  (<["num_epochs" := HInt 2]>
  (<["pretrained_model_name_or_path" := HStr "google/flan-t5-large"]> ∅)))))).

Definition make_tensorboard_config (bucket : string) : TensorBoardOutputConfig :=
  {| s3_output_path := "s3://" ++ bucket ++ "/" ++ s3_key_prefix ++ "/tensorboard" |}.

Definition make_estimator (role : string) (tb : TensorBoardOutputConfig) : Estimator :=
  {| source_dir := "src/train";
     entry_point := "acc_launcher.py";
     est_role := role;
     instance_count := 1;
     est_instance_type := "ml.g5.24xlarge";
     framework_version := "1.13";
     py_version := "py39";
     disable_profiler := true;
     tensorboard_output_config := tb;
     hyperparameters := notebook_hyperparameters;
     keep_alive_period_in_seconds := 3600 |}.

Definition tensorboard_html (tb : TensorBoardOutputConfig) : string :=
  "1. Paste the following command into the Studio Terminal <code style="
  ++ dq ++ "background-color:gray;" ++ dq ++ ">tensorboard --logdir "
  ++ s3_output_path tb ++ "</code><br>" ++ nl
  ++ "2. Click <a href='/jupyter/default/proxy/6006/'>here</a> to open TensorBoard".

Definition make_image_uri (region : string) : string :=
  "763104351884.dkr.ecr." ++ region
  ++ ".amazonaws.com/djl-inference:0.21.0-deepspeed0.8.0-cu117".

(** The text written to [serving.properties]. *)
Definition serving_properties (model_id : string) : string :=
  "engine=Python" ++ nl ++ "option.model_id=" ++ model_id ++ nl ++ "    ".

(** [contents[-1]] *)
Definition last_name (contents : list string) : result string :=
  match last contents with
  | Some n => ok n
  | None => raise IndexError
  end.

(** The [with tarfile.open(...)] cell: returns [model_id]. *)
Definition extract_cell : prog string :=
  tar <- local (TarOpen "model.tar.gz") ;;
  let contents := getnames tar in
  name <- lift (last_name contents) ;;
  let model_id := dirname name in
  local (ExtractAll tar "src/inference/") ;;;
  Ret model_id.

Definition properties_cell (model_id : string) : prog unit :=
  local (WriteText "src/inference/serving.properties" (serving_properties model_id)).

(** The [%%bash] cell. *)
Definition package_cell : prog unit :=
  local (TarCreate "src/" "model.tar.gz" "inference/") ;;;
  local (Mv "src/model.tar.gz" "model.tar.gz").

(** The three packaging cells in a row: returns [model_id]. *)
Definition repackage : prog string :=
  model_id <- extract_cell ;;
  properties_cell model_id ;;;
  package_cell ;;;
  Ret model_id.

(** [predictor.predict(data)] with the JSON serializer and deserializer:
    the value travels as a JSON document both ways. *)
Definition serialize (s : serializer_kind) (data : json) : json :=
  match s with JSONSerializer => data end.

Definition deserialize (d : deserializer_kind) (body : json) : json :=
  match d with JSONDeserializer => body end.

Definition predict (p : Predictor) (data : json) : prog json :=
  body <- ext (InvokeEndpoint (endpoint_name p) (serialize (serializer p) data)) ;;
  Ret (deserialize (deserializer p) body).

Definition delete_endpoint (p : Predictor) : prog unit :=
  ext (DeleteEndpoint (endpoint_name p)).

Definition deploy_model (image_uri model_data role endpoint_name instance_type : string)
    (sagemaker_session : Session) : prog Predictor :=
  let model := {| image_uri := image_uri; model_data := model_data; model_role := role |} in
  ext (Deploy model 1 instance_type endpoint_name) ;;;
  let predictor :=
    {| endpoint_name := endpoint_name;
       sagemaker_session := sagemaker_session;
       serializer := JSONSerializer;
       deserializer := JSONDeserializer |} in
  Ret predictor.

(** The request sent for one dialogue. *)
Definition request (dialogue : string) : json :=
  JObj [("inputs", JArr [JStr dialogue]);
        ("parameters", JObj [("max_length", JNum 100)])].

(** [output["outputs"][0]["summary_text"]] *)
Definition read_summary (output : json) : result json :=
  rbind (getitem_key output "outputs") (fun outputs =>
  rbind (getitem_idx outputs 0) (fun first =>
  getitem_key first "summary_text")).

(** [test_data["dialogue"][random_dialogue_idx]] *)
Definition pick_dialogue (test_data : DataFrame) (idx : Z) : result string :=
  rbind (df_getitem test_data "dialogue") (fun col => series_getitem col idx).

(** The sampling cell. *)
Definition sample_cell (hf_predictor : Predictor) (test_data : DataFrame) : prog json :=
  random_dialogue_idx <- ext (Randint 0 (Z.of_nat (shape test_data).1)) ;;
  random_dialogue <- lift (pick_dialogue test_data random_dialogue_idx) ;;
  output <- predict hf_predictor (request random_dialogue) ;;
  output_summary <- lift (read_summary output) ;;
  display (ShownText ("#####DIALOGUE######" ++ nl) random_dialogue) ;;;
  display (ShownValue (nl ++ "#####GENERATED SUMMARY######" ++ nl) output_summary) ;;;
  Ret output_summary.

(** The names still bound when the last cell has run. *)
Record globals := mkGlobals {
  g_bucket : string;
  g_s3_data_path : string;
  g_job : string;
  g_model_id : string;
  g_hf_s3_code_artifact : string;
  g_hf_endpoint_name : string;
  g_hf_predictor : Predictor;
  g_output_summary : json
}.

Definition notebook : prog globals :=
  (* session and credentials *)
  role <- ext GetExecutionRole ;;
  sess <- ext NewSession ;;
  bucket <- ext (DefaultBucket sess) ;;
  model_bucket <- ext (DefaultBucket sess) ;;
  let region := _region_name sess in
  account_id <- ext (AccountId sess) ;;
  s3_client <- ext (Boto3Client "s3") ;;
  sm_client <- ext (Boto3Client "sagemaker") ;;
  smr_client <- ext (Boto3Client "sagemaker-runtime") ;;
  (* the dataset *)
  shell (Wget train_url train_path) ;;;
  shell (Wget test_url test_path) ;;;
  train_data <- ext (ReadJson train_path true) ;;
  test_data <- ext (ReadJson test_path true) ;;
  display (ShownShape "Train data shape: " (shape train_data)) ;;;
  display (ShownShape "Test data shape: " (shape test_data)) ;;;
  display (ShownTable (head train_data)) ;;;
  dialogue0 <- lift (rbind (df_getitem train_data "dialogue") (fun s => series_getitem s 0)) ;;
  display (ShownText ("#####DIALOGUE###### " ++ nl) dialogue0) ;;;
  summary0 <- lift (rbind (df_getitem train_data "summary") (fun s => series_getitem s 0)) ;;
  display (ShownText (nl ++ "#####SUMMARY###### " ++ nl) summary0) ;;;
  s3_data_path <- ext (UploadData sess train_path bucket (s3_key_prefix ++ "/data")) ;;
  (* the training job *)
  let tensorboard_output_config := make_tensorboard_config bucket in
  let estimator := make_estimator role tensorboard_output_config in
  job <- ext (Fit estimator [("train", s3_data_path)] false) ;;
  cwd <- ext OsGetcwd ;;
  home <- ext (OsEnviron "HOME") ;;
  let cur_dir := replace home "" cwd in
  display (ShownHtml (tensorboard_html tensorboard_output_config)) ;;;
  ext (JobWait job "None") ;;;
  (* the deployment package *)
  let inference_image_uri := make_image_uri region in
  display (ShownText "Image going to be used is ---- > " inference_image_uri) ;;;
  shell (AwsS3CpModelData job ".") ;;;
  model_id <- repackage ;;
  hf_s3_code_artifact <- ext (UploadData sess "model.tar.gz" bucket (s3_key_prefix ++ "/model")) ;;
  display (ShownText "S3 Code or Model tar ball uploaded to --- > " hf_s3_code_artifact) ;;;
  (* the endpoint *)
  hf_endpoint_name <- ext (NameFromBase "t5-summarization") ;;
  display (ShownText "Our endpoint will be called " hf_endpoint_name) ;;;
  hf_predictor <- deploy_model inference_image_uri hf_s3_code_artifact role
                    hf_endpoint_name "ml.g4dn.xlarge" sess ;;
  output_summary <- sample_cell hf_predictor test_data ;;
  delete_endpoint hf_predictor ;;;
  Ret {| g_bucket := bucket;
         g_s3_data_path := s3_data_path;
         g_job := job;
         g_model_id := model_id;
         g_hf_s3_code_artifact := hf_s3_code_artifact;
         g_hf_endpoint_name := hf_endpoint_name;
         g_hf_predictor := hf_predictor;
         g_output_summary := output_summary |}.

End Notebook.

(** ** The inference endpoint *)

(** The answer of the endpoint that carries the summary [text]. *)
Definition reply_form (text : string) : json :=
  JObj [("outputs", JArr [JObj [("summary_text", JStr text)]])].

(** Modelled from the spec: the handler behind the endpoint (the inference
    code [src/inference/model.py] packed into the archive) is not part of
    the sources at hand.  The spec gives its interface: a request
    [{"inputs": [text], "parameters": {...}}] is answered by
    [{"outputs": [{"summary_text": text}]}].  The text generation itself is
    the parameter [generate]. *)
Definition endpoint_reply (generate : string -> json -> string) (req : json) : result json :=
  match req with
  | JObj [("inputs", JArr [JStr text]); ("parameters", JObj params)] =>
      ok (reply_form (generate text (JObj params)))
  | _ => raise (ExternalError "endpoint" "malformed request")
  end.

(** ** A scripted environment *)

Module Script.

(** What the outside world holds in one scenario. *)
Record scenario := mkScenario {
  sc_train : DataFrame;
  sc_test : DataFrame;
  sc_artifact : list (string * node);
  sc_draw : Z -> Z -> Z;
  sc_failure : ext_call -> option exn
}.

Definition generate (text : string) (params : json) : string :=
  "summary of: " ++ text.

Definition answer (sc : scenario) (c : ext_call) (f : fs) : result (ext_ret c) :=
  match c return result (ext_ret c) with
  | GetExecutionRole => ok "arn:aws:iam::111122223333:role/lab"
  | NewSession => ok {| _region_name := "us-east-1" |}
  | DefaultBucket _ => ok "sagemaker-us-east-1-111122223333"
  | AccountId _ => ok "111122223333"
  | Boto3Client _ => ok tt
  | ReadJson path _ =>
      match f !! path with
      | Some (Raw _) =>
          if String.eqb path Notebook.train_path then ok (sc_train sc)
          else ok (sc_test sc)
      | _ => raise (FileNotFoundError path)
      end
  | UploadData _ path bucket key_prefix =>
      match f !! path with
      | Some _ => ok ("s3://" ++ bucket ++ "/" ++ key_prefix ++ "/" ++ basename path)
      | None => raise (FileNotFoundError path)
      end
  | Fit _ _ _ => ok "pytorch-training-2023-05-01-10-00-00-000"
  | OsGetcwd => ok "/home/sagemaker-user/lab_2"
  | OsEnviron _ => ok "/home/sagemaker-user"
  | JobWait _ _ => ok tt
  | Deploy _ _ _ _ => ok tt
  | NameFromBase base => ok (base ++ "-2023-05-01-10-30-00-000")
  | Randint a b => ok (sc_draw sc a b)
  | InvokeEndpoint _ body => endpoint_reply generate body
  | DeleteEndpoint _ => ok tt
  end.

(** The environment counts the calls it has answered. *)
Definition ext_handle (sc : scenario) (c : ext_call) (f : fs) (w : nat)
    : result (ext_ret c) * nat :=
  match sc_failure sc c with
  | Some e => (inl e, S w)
  | None => (answer sc c f, S w)
  end.

Definition shell_handle (sc : scenario) (c : shell_cmd) (f : fs) (w : nat)
    : shell_ret c * nat :=
  match c return shell_ret c * nat with
  | Wget url _ => (Some ("jsonl from " ++ url), S w)
  | AwsS3CpModelData job _ =>
      (Some ("s3://sagemaker-us-east-1-111122223333/" ++ job ++ "/output/model.tar.gz",
             Tarball (sc_artifact sc)), S w)
  end.

Definition table (rows : list (string * string)) : DataFrame :=
  {| df_index := length rows;
     df_data := <["dialogue" := rows.*1]> (<["summary" := rows.*2]> ∅) |}.

Definition train_table : DataFrame :=
  table [("#Person1#: Hi. #Person2#: Hello.", "Two people greet.");
         ("#Person1#: Bye. #Person2#: See you.", "Two people part.")].

Definition test_table : DataFrame :=
  table [("#Person1#: Tea? #Person2#: Yes.", "Tea is accepted.");
         ("#Person1#: Late? #Person2#: No.", "Nobody is late.");
         ("#Person1#: Rain? #Person2#: Soon.", "Rain is coming.")].

Definition artifact : list (string * node) :=
  [("flan-t5-large", Dir);
   ("flan-t5-large/adapter_config.json", Raw "{}");
   ("flan-t5-large/adapter_model.bin", Raw "weights")].

(** The checkout the notebook runs in. *)
Definition checkout : fs :=
  <["src/inference/model.py" := Raw "def handle(inputs): ..."]>
  (<["src/inference/requirements.txt" := Raw "peft"]>
  (<["src/train/train.py" := Raw "..."]> ∅)).

(** Everything answers; the generator draws the lower bound. *)
Definition fair : scenario :=
  {| sc_train := train_table; sc_test := test_table; sc_artifact := artifact;
     sc_draw := fun a _ => a; sc_failure := fun _ => None |}.

(** Everything answers; the generator draws the upper bound. *)
Definition upper : scenario :=
  {| sc_train := train_table; sc_test := test_table; sc_artifact := artifact;
     sc_draw := fun _ b => b; sc_failure := fun _ => None |}.

(** The training job fails while the notebook waits for it. *)
Definition job_fails : scenario :=
  {| sc_train := train_table; sc_test := test_table; sc_artifact := artifact;
     sc_draw := fun a _ => a;
     sc_failure := fun c =>
       match c with
       | JobWait _ _ => Some (ExternalError "sagemaker" "training job failed")
       | _ => None
       end |}.


Definition play (sc : scenario) : outcome nat Notebook.globals :=
  run (ext_handle sc) (shell_handle sc) Notebook.notebook checkout 0%nat.



(** The step at which [job_fails] stops. *)
Definition wait_failure : exn := ExternalError "sagemaker" "training job failed".

Definition failed_wait : event :=
  EvExt (final_fs (play job_fails))
    (JobWait "pytorch-training-2023-05-01-10-00-00-000" "None") (inl wait_failure).

End Script.

(** ** Reading a trace *)

(** The exception a step raised, if it did. *)
Definition ev_raised (ev : event) : option exn :=
  match ev with
  | EvExt _ _ (inl e) => Some e
  | EvLocal _ _ (Some e) => Some e
  | _ => None
  end.

(** The exception an external call raised, if the step is one and it did. *)
Definition ext_raised (ev : event) : option exn :=
  match ev with
  | EvExt _ _ (inl e) => Some e
  | _ => None
  end.

(** The local file system a step saw. *)
Definition ev_fs (ev : event) : option fs :=
  match ev with
  | EvExt f _ _ | EvShell f _ _ | EvLocal f _ _ => Some f
  | EvShow _ => None
  end.

Definition completed {W R} (o : outcome W R) : Prop :=
  exists r, returned o = inr r.

(** A program without any [try]. *)
Inductive no_try : forall {R : Type}, prog R -> Prop :=
| no_try_Ret {R} (r : R) : no_try (Ret r)
| no_try_Raise {R} (e : exn) : no_try (@Raise R e)
| no_try_Ext {R} c (k : ext_ret c -> prog R) :
    (forall x, no_try (k x)) -> no_try (Ext c k)
| no_try_Shell {R} c (k : shell_ret c -> prog R) :
    (forall x, no_try (k x)) -> no_try (Shell c k)
| no_try_Local {R} o (k : local_ret o -> prog R) :
    (forall x, no_try (k x)) -> no_try (Local o k)
| no_try_Show {R} d (k : prog R) :
    no_try k -> no_try (Show d k).


(** The answer of the first successful [name_from_base(base)] of a trace. *)
Fixpoint generated_name (base : string) (tr : list event) : option string :=
  match tr with
  | [] => None
  | EvExt _ (NameFromBase b) (inr n) :: tr' =>
      if String.eqb b base then Some n else generated_name base tr'
  | _ :: tr' => generated_name base tr'
  end.

(** The endpoint a step creates, calls or deletes. *)
Definition endpoint_of (ev : event) : option string :=
  match ev with
  | EvExt _ (Deploy _ _ _ n) _ => Some n
  | EvExt _ (InvokeEndpoint n _) _ => Some n
  | EvExt _ (DeleteEndpoint n) _ => Some n
  | _ => None
  end.

Definition is_deploy (ev : event) : bool :=
  match ev with EvExt _ (Deploy _ _ _ _) _ => true | _ => false end.
Definition is_invoke (ev : event) : bool :=
  match ev with EvExt _ (InvokeEndpoint _ _) _ => true | _ => false end.
Definition is_delete (ev : event) : bool :=
  match ev with EvExt _ (DeleteEndpoint _) _ => true | _ => false end.

Definition count (P : event -> bool) (tr : list event) : nat :=
  length (List.filter P tr).

(** Where a step stores something in object storage: bucket and key prefix
    for an upload, the output location for the TensorBoard configuration of
    a submitted job. *)
Inductive s3_target :=
| UploadTo (path bucket key_prefix : string)
| OutputTo (uri : string).

Definition s3_write (ev : event) : option s3_target :=
  match ev with
  | EvExt _ (UploadData _ path bucket key_prefix) _ => Some (UploadTo path bucket key_prefix)
  | EvExt _ (Fit est _ _) _ => Some (OutputTo (s3_output_path (tensorboard_output_config est)))
  | _ => None
  end.

(** ** The steps of the pipeline *)

(** What a recorded step does for the pipeline.  Displays and the two
    [os] look-ups of the TensorBoard hint are not steps of the pipeline. *)
Inductive step :=
| StConfigure
| StFetch (dest : string)
| StRead (path : string)
| StUpload (path : string)
| StSubmit (wait : bool)
| StWait
| StDownload
| StRepackage
| StName (base : string)
| StDeploy
| StSample
| StInvoke
| StTeardown.

Global Instance step_eq_dec : EqDecision step.
Proof. solve_decision. Defined.

Definition step_of (ev : event) : option step :=
  match ev with
  | EvExt _ c _ =>
      match c with
      | GetExecutionRole | NewSession | DefaultBucket _ | AccountId _ | Boto3Client _ =>
          Some StConfigure
      | ReadJson path _ => Some (StRead path)
      | UploadData _ path _ _ => Some (StUpload path)
      | Fit _ _ wait => Some (StSubmit wait)
      | OsGetcwd | OsEnviron _ => None
      | JobWait _ _ => Some StWait
      | Deploy _ _ _ _ => Some StDeploy
      | NameFromBase base => Some (StName base)
      | Randint _ _ => Some StSample
      | InvokeEndpoint _ _ => Some StInvoke
      | DeleteEndpoint _ => Some StTeardown
      end
  | EvShell _ c _ =>
      match c with
      | Wget _ dest => Some (StFetch dest)
      | AwsS3CpModelData _ _ => Some StDownload
      end
  | EvLocal _ _ _ => Some StRepackage
  | EvShow _ => None
  end.

Definition steps_of (tr : list event) : list step := omap step_of tr.

(** The steps of a run that reaches the end of the notebook. *)
Definition pipeline : list step :=
  [StConfigure; StConfigure; StConfigure; StConfigure;
   StConfigure; StConfigure; StConfigure; StConfigure;
   StFetch Notebook.train_path; StFetch Notebook.test_path;
   StRead Notebook.train_path; StRead Notebook.test_path;
   StUpload Notebook.train_path;
   StSubmit false;
   StWait;
   StDownload;
   StRepackage; StRepackage; StRepackage; StRepackage; StRepackage;
   StUpload "model.tar.gz";
   StName "t5-summarization";
   StDeploy;
   StSample;
   StInvoke;
   StTeardown].

(** The nine stages of the walkthrough: 1 configure, 2 fetch and inspect,
    3 upload the data, 4 submit the job, 5 wait for it, 6 repackage the
    artifact, 7 deploy the archive, 8 request, 9 tear down. *)
Definition stage (s : step) : nat :=
  match s with
  | StConfigure => 1
  | StFetch _ | StRead _ => 2
  | StUpload path => if String.eqb path Notebook.train_path then 3 else 7
  | StSubmit _ => 4
  | StWait => 5
  | StDownload | StRepackage => 6
  | StName _ | StDeploy => 7
  | StSample | StInvoke => 8
  | StTeardown => 9
  end%nat.

(** [before y x l]: up to the first [x] of [l], if any, there is a [y]. *)
Fixpoint before (y x : step) (l : list step) : bool :=
  match l with
  | [] => true
  | z :: l' =>
      if decide (z = x) then false
      else if decide (z = y) then true
      else before y x l'
  end.

(** ** The life of a dataset file *)



(** The paths a step writes on the local disk. *)
Definition shell_writes (c : shell_cmd) : shell_ret c -> list string :=
  match c return shell_ret c -> list string with
  | Wget _ dest => fun r => match r with Some _ => [dest] | None => [] end
  | AwsS3CpModelData _ dst => fun r =>
      match r with Some (uri, _) => [cp_target uri dst] | None => [] end
  end.

Definition local_writes (o : local_op) : list string :=
  match o with
  | TarOpen _ => []
  | ExtractAll members dest => (fun m => dest ++ m.1) <$> members
  | WriteText path _ => [path]
  | TarCreate cwd archive _ => [cwd ++ archive]
  | Mv src dst => [src; dst]
  end.



(** ** The hyperparameters *)

(** The names the walkthrough lists as training hyperparameters. *)
Definition training_hyperparameters : gset string :=
  {[ "lr"; "batch_size"; "num_epochs"; "subsample"; "pretrained_model_name_or_path" ]}.

(** The two entries read by the launcher [acc_launcher.py]. *)
Definition launcher_settings : gset string :=
  {[ "training_script"; "config_file" ]}.

(** The mappings handed to the training service in a run. *)
Definition submitted (tr : list event) : list (gmap string hp_value) :=
  omap (fun ev =>
          match ev with
          | EvExt _ (Fit est _ _) _ => Some (hyperparameters est)
          | _ => None
          end) tr.

(** ** Uploads and endpoints *)


(** A step that touches an endpoint touches the one named by
    [name_from_base("t5-summarization")]. *)
Definition endpoint_ok (tr : list event) (ev : event) : Prop :=
  forall n, endpoint_of ev = Some n ->
    generated_name "t5-summarization" tr = Some n.


(** ** The properties file *)

(** The lines of a text. *)
Fixpoint lines (s : string) : list string :=
  match s with
  | EmptyString => [EmptyString]
  | String c s' =>
      if Ascii.eqb c (ascii_of_nat 10) then EmptyString :: lines s'
      else match lines s' with
           | l :: ls => String c l :: ls
           | [] => [String c EmptyString]
           end
  end.

(** [key=value], split at the first [=]. *)
Fixpoint setting (line : string) : option (string * string) :=
  match line with
  | EmptyString => None
  | String c s' =>
      if Ascii.eqb c "="%char then Some (EmptyString, s')
      else match setting s' with
           | Some (k, v) => Some (String c k, v)
           | None => None
           end
  end.

(** The settings of a properties file, in file order. *)
Definition settings (text : string) : list (string * string) :=
  omap setting (lines text).

(** A text mentions a character. *)
Fixpoint mentions (c : ascii) (s : string) : bool :=
  match s with
  | EmptyString => false
  | String a s' => Ascii.eqb a c || mentions c s'
  end.

(** ** The random draw *)

(** [random.randint(a, b)] returns an integer [N] with [a <= N <= b]. *)
Definition randint_contract (a b n : Z) : Prop := a <= n <= b.

(** ** The deployment package *)


(** [holds P o]: the property [P] of the outcome [o], kept apart from it
    while the run is followed. *)
Definition holds {A} (P : A -> Prop) (a : A) : Prop := P a.

(** ** More readers of a trace *)

(** The answer of the first successful [get_execution_role()] of a trace. *)
Fixpoint execution_role (tr : list event) : option string :=
  match tr with
  | [] => None
  | EvExt _ GetExecutionRole (inr role) :: _ => Some role
  | _ :: tr' => execution_role tr'
  end.


(** The location returned by the first successful upload of [path]. *)
Fixpoint uploaded (path : string) (tr : list event) : option string :=
  match tr with
  | [] => None
  | EvExt _ (UploadData _ p _ _) (inr uri) :: tr' =>
      if String.eqb p path then Some uri else uploaded path tr'
  | _ :: tr' => uploaded path tr'
  end.

(** The table returned by the first successful [read_json] of [path]. *)
Fixpoint table_read (path : string) (tr : list event) : option DataFrame :=
  match tr with
  | [] => None
  | EvExt _ (ReadJson p _) (inr df) :: tr' =>
      if String.eqb p path then Some df else table_read path tr'
  | _ :: tr' => table_read path tr'
  end.

(** The bounds and the result of the first successful [randint]. *)
Fixpoint drawn (tr : list event) : option (Z * Z * Z) :=
  match tr with
  | [] => None
  | EvExt _ (Randint a b) (inr n) :: _ => Some (a, b, n)
  | _ :: tr' => drawn tr'
  end.



(** [train_data[col][0]], the look-up of the inspection cell. *)
Definition first_cell (df : DataFrame) (col : string) : result string :=
  rbind (df_getitem df col) (fun s => series_getitem s 0).

(** A submitted job runs under the execution role and reads, as its [train]
    channel, the location the upload of the training file returned. *)
Definition job_ok (tr : list event) (ev : event) : Prop :=
  match ev with
  | EvExt _ (Fit est inputs wait) _ =>
      execution_role tr = Some (est_role est)
      /\ (exists uri, uploaded Notebook.train_path tr = Some uri
                      /\ inputs = [("train", uri)])
      /\ wait = false
      /\ instance_count est = 1
      /\ est_instance_type est = "ml.g5.24xlarge"
  | _ => True
  end.


(** A request carries the dialogue of the test table at the drawn index, the
    draw being made between [0] and the number of rows. *)
Definition sampled_ok (tr : list event) (ev : event) : Prop :=
  match ev with
  | EvExt _ (InvokeEndpoint _ body) _ =>
      exists df idx dialogue,
        table_read Notebook.test_path tr = Some df
        /\ drawn tr = Some (0, Z.of_nat (df_index df), idx)
        /\ Notebook.pick_dialogue df idx = inr dialogue
        /\ body = Notebook.request dialogue
  | _ => True
  end.

(** A table is read from the file its fetch left: the text just fetched, or,
    when the fetch wrote nothing, whatever was at the path before. *)
Definition read_sees (tr : list event) (ev : event) : Prop :=
  match ev with
  | EvExt f_read (ReadJson path _) _ =>
      exists f_fetch url r,
        EvShell f_fetch (Wget url path) r ∈ tr
        /\ f_read !! path = match r with
                            | Some text => Some (Raw text)
                            | None => f_fetch !! path
                            end
  | _ => True
  end.

(** What is uploaded as [model.tar.gz] is an archive rooted at
    [inference/] that holds a generated [serving.properties]. *)
Definition package_uploaded (ev : event) : Prop :=
  match ev with
  | EvExt f (UploadData _ path _ _) _ =>
      path = "model.tar.gz" ->
      exists package model_id,
        f !! "model.tar.gz" = Some (Tarball package)
        /\ Forall (fun m => String.prefix "inference/" m.1 = true) package
        /\ ("inference/serving.properties",
            Raw (Notebook.serving_properties model_id)) ∈ package
  | _ => True
  end.

(** Nothing is stored or submitted before the first training example and
    its summary could be shown. *)
Definition guarded (tr : list event) (ev : event) : Prop :=
  match s3_write ev with
  | Some _ =>
      exists df dialogue summary,
        table_read Notebook.train_path tr = Some df
        /\ first_cell df "dialogue" = inr dialogue
        /\ first_cell df "summary" = inr summary
  | None => True
  end.


(** The download cell followed by the packaging cells. *)
Definition download_and_repackage (job : string) : prog string :=
  bind (shell (AwsS3CpModelData job ".")) (fun _ => Notebook.repackage).

(** ** An environment without the artifact *)

Module Offline.

(** As [Script.shell_handle], but the download of the artifact fails. *)
Definition shell_handle (c : shell_cmd) (f : fs) (w : nat) : shell_ret c * nat :=
  match c return shell_ret c * nat with
  | Wget url dest => Script.shell_handle Script.fair (Wget url dest) f w
  | AwsS3CpModelData _ _ => (None, S w)
  end.

Definition play : outcome nat Notebook.globals :=
  run (Script.ext_handle Script.fair) shell_handle Notebook.notebook
    Script.checkout 0%nat.

(** The packaging cells after a failed download, without and with an older
    [model.tar.gz] on disk. *)
Definition repack_missing : outcome nat string :=
  run (Script.ext_handle Script.fair) shell_handle
    (download_and_repackage "job") Script.checkout 0%nat.



End Offline.

(** * Properties *)

Open Scope list_scope.

(** ** The helpers on small inputs *)

Example dirname_nested : dirname "flan-t5-large/adapter_model.bin" = "flan-t5-large".
Proof. reflexivity. Qed.

Example dirname_top : dirname "adapter_model.bin" = "".
Proof. reflexivity. Qed.

Example dirname_root : dirname "//x" = "//".
Proof. reflexivity. Qed.

Example dirname_deep : dirname "a/b//c" = "a/b".
Proof. reflexivity. Qed.

Example dirname_trailing : dirname "a/" = "a".
Proof. reflexivity. Qed.

Example dirname_slash : dirname "/" = "/".
Proof. reflexivity. Qed.

Example dirname_empty : dirname "" = "".
Proof. reflexivity. Qed.

Example replace_empty_pattern : replace "" "-" "abc" = "-a-b-c-".
Proof. reflexivity. Qed.

Example basename_uri : basename "s3://bucket/job/output/model.tar.gz" = "model.tar.gz".
Proof. reflexivity. Qed.

Example replace_home : replace "/home/user" "" "/home/user/lab_2" = "/lab_2".
Proof. reflexivity. Qed.

Example replace_twice : replace "ab" "x" "abcabab" = "xcxx".
Proof. reflexivity. Qed.

Example settings_sample :
  settings (Notebook.serving_properties "flan-t5-large")
  = [("engine", "Python"); ("option.model_id", "flan-t5-large")].
Proof. reflexivity. Qed.

Example fair_run_completes :
  exists g, returned (Script.play Script.fair) = inr g
            /\ Notebook.g_model_id g = "flan-t5-large".
Proof. eexists. split; [vm_compute; reflexivity | reflexivity]. Qed.

Example fair_run_steps : steps_of (trace (Script.play Script.fair)) = pipeline.
Proof. vm_compute. reflexivity. Qed.

(** ** Lists of steps *)

Lemma before_split (y x : step) (l pre post : list step) :
  before y x l = true -> l = pre ++ x :: post -> y ∈ pre.
Proof.
  revert pre. induction l as [|z l IH]; intros pre Hb Hl.
  - destruct pre; discriminate.
  - destruct pre as [|p pre]; simplify_eq/=.
    + by rewrite decide_True in Hb.
    + destruct (decide (p = x)); [done|].
      destruct (decide (p = y)) as [->|]; [left|right; eauto].
  Qed.

Lemma stages_pipeline :
  stage <$> pipeline
  = [1; 1; 1; 1; 1; 1; 1; 1; 2; 2; 2; 2; 3; 4; 5; 6; 6; 6; 6; 6; 6; 7; 7; 7; 8; 8; 9]%nat.
Proof. reflexivity. Qed.

Lemma prefix_split (l full pre post : list step) :
  l `prefix_of` full -> l = pre ++ post -> exists rest, full = pre ++ post ++ rest.
Proof. intros [k ->] ->. exists k. by rewrite <- app_assoc. Qed.

Lemma sorted_prefix (l full : list nat) :
  l `prefix_of` full -> StronglySorted le full -> StronglySorted le l.
Proof. intros [k ->] H. apply StronglySorted_app in H. tauto. Qed.

(** ** Programs without [try] *)

Lemma no_try_bind {A B} (p : prog A) (f : A -> prog B) :
  no_try p -> (forall a, no_try (f a)) -> no_try (bind p f).
Proof. induction 1; intros Hf; cbn; try constructor; eauto. Qed.

Lemma no_try_lift {A} (r : result A) : no_try (lift r).
Proof. destruct r; constructor. Qed.

Lemma no_try_ext c : no_try (ext c).
Proof. constructor. intros. constructor. Qed.

Lemma no_try_shell c : no_try (shell c).
Proof. constructor. intros. constructor. Qed.

Lemma no_try_local o : no_try (local o).
Proof. constructor. intros. constructor. Qed.

Lemma no_try_display d : no_try (display d).
Proof. constructor. constructor. Qed.

Ltac no_try_tac :=
  repeat lazymatch goal with
    | |- no_try (bind _ _) => apply no_try_bind; [ | intros ]
    | |- no_try (ext ?c) => exact (no_try_ext c)
    | |- no_try (shell ?c) => exact (no_try_shell c)
    | |- no_try (local ?o) => exact (no_try_local o)
    | |- no_try (display ?d) => exact (no_try_display d)
    | |- no_try (lift ?r) => exact (no_try_lift r)
    | |- no_try (Ret ?r) => exact (no_try_Ret r)
    | |- no_try _ => cbv zeta
    end.

Lemma no_try_notebook : no_try Notebook.notebook.
Proof.
  unfold Notebook.notebook, Notebook.repackage, Notebook.extract_cell,
    Notebook.properties_cell, Notebook.package_cell, Notebook.deploy_model,
    Notebook.sample_cell, Notebook.predict, Notebook.delete_endpoint.
  no_try_tac.
Qed.

(** ** Texts and lines *)

Lemma append_cons (x : ascii) (a b : string) :
  (String x a ++ b = String x (a ++ b))%string.
Proof. reflexivity. Qed.

Lemma append_nil (b : string) : ("" ++ b = b)%string.
Proof. reflexivity. Qed.

Lemma append_assoc (a b c : string) : ((a ++ b) ++ c = a ++ (b ++ c))%string.
Proof.
  induction a as [|x a IH]; rewrite ?append_nil, ?append_cons; [done|]. by f_equal.
Qed.









(** ** Paths and file-system frames *)

Lemma mentions_of_list (c : ascii) (l : list ascii) :
  Forall (fun a => Ascii.eqb a c = false) l ->
  mentions c (String.string_of_list_ascii l) = false.
Proof. induction 1 as [|a l Ha _ IH]; cbn; [done|]. by rewrite Ha, IH. Qed.

Lemma before_sep_free (l : list ascii) :
  Forall (fun a => Ascii.eqb a "/" = false) (before_sep l).
Proof.
  induction l as [|a l IH]; cbn; [constructor|].
  unfold is_sep. destruct (Ascii.eqb a "/") eqn:Ha; by constructor.
Qed.

(** A base name has no separator. *)
Lemma basename_no_sep (p : string) : mentions "/" (basename p) = false.
Proof.
  unfold basename. apply mentions_of_list, Forall_rev, before_sep_free.
Qed.

(** Extraction leaves alone what is not named by a member. *)
Lemma extractall_frame (dest : string) (members : list (string * node)) (f : fs) (p : string) :
  p ∉ (fun m => dest ++ m.1)%string <$> members ->
  extractall dest members f !! p = f !! p.
Proof.
  revert f. induction members as [|m members IH]; intros f Hp; [done|].
  rewrite fmap_cons in Hp. apply not_elem_of_cons in Hp as [Hne Hp].
  change (extractall dest (m :: members) f)
    with (extractall dest members (<[(dest ++ m.1)%string := m.2]> f)).
  rewrite (IH _ Hp). by rewrite lookup_insert_ne.
Qed.

(** [local_writes] is all a local operation writes. *)
Lemma local_frame (o : local_op) (f f' : fs) (x : local_ret o) (p : string) :
  local_sem o f = inr (x, f') -> p ∉ local_writes o -> f' !! p = f !! p.
Proof.
  destruct o; cbn; unfold ok, raise; intros Hsem Hp.
  - destruct (f !! path) as [[| |?]|]; by simplify_eq.
  - simplify_eq. by apply extractall_frame.
  - simplify_eq. apply not_elem_of_cons in Hp as [? _]. by rewrite lookup_insert_ne.
  - simplify_eq. apply not_elem_of_cons in Hp as [? _].
    unfold tar_create. by rewrite lookup_insert_ne.
  - destruct (f !! src); simplify_eq.
    apply not_elem_of_cons in Hp as [? Hp]. apply not_elem_of_cons in Hp as [? _].
    rewrite lookup_insert_ne by done. by rewrite lookup_delete_ne.
Qed.

(** [shell_writes] is all a shell escape writes. *)
Lemma shell_frame (c : shell_cmd) (r : shell_ret c) (f : fs) (p : string) :
  p ∉ shell_writes c r -> shell_effect c r f !! p = f !! p.
Proof.
  destruct c; cbn in r |- *; intros Hp.
  - destruct r; [|done]. apply not_elem_of_cons in Hp as [? _].
    by rewrite lookup_insert_ne.
  - destruct r as [[uri obj]|]; [|done]. apply not_elem_of_cons in Hp as [? _].
    by rewrite lookup_insert_ne.
Qed.














(** ** Archives *)






Lemma tar_create_lookup (f : fs) :
  tar_create "src/" "model.tar.gz" "inference/" f !! "src/model.tar.gz"
  = Some (Tarball (tar_members "src/" "inference/" f)).
Proof. apply lookup_insert_eq. Qed.

Lemma strip_prefix_append (pre s : string) :
  strip_prefix pre (pre ++ s)%string = Some s.
Proof.
  induction pre as [|x pre IH]; rewrite ?append_nil, ?append_cons; simpl.
  - by destruct s.
  - by rewrite Ascii.eqb_refl.
Qed.

(** What is stored below [src/inference/] is in the archive, named from
    [inference/] on. *)
Lemma tar_members_elem (f : fs) rel n :
  f !! ("src/" ++ rel)%string = Some n ->
  String.prefix "inference/" rel = true ->
  (rel, n) ∈ tar_members "src/" "inference/" f.
Proof.
  intros Hf Hrel. unfold tar_members. apply elem_of_cons. right.
  apply list_elem_of_omap. exists (("src/" ++ rel)%string, n). split.
  - by apply elem_of_map_to_list.
  - unfold member_of. cbn [fst snd]. by rewrite strip_prefix_append, Hrel.
Qed.

(** Every member of the archive is named from [inference/] on. *)
Lemma tar_members_rooted (f : fs) :
  Forall (fun m => String.prefix "inference/" m.1 = true)
    (tar_members "src/" "inference/" f).
Proof.
  unfold tar_members. constructor; [reflexivity|].
  apply Forall_forall. intros m (e & _ & He)%list_elem_of_omap.
  unfold member_of in He. destruct (strip_prefix "src/" e.1) as [rel|]; [|done].
  destruct (String.prefix "inference/" rel) eqn:Hrel; by simplify_eq.
Qed.

Section Runs.

Context {W : Type}.
Variable ext_handle : forall c : ext_call, fs -> W -> result (ext_ret c) * W.
Variable shell_handle : forall c : shell_cmd, fs -> W -> shell_ret c * W.

Abbreviation exec := (run ext_handle shell_handle).

(** In a program without [try], a step that raises is the last step of
    the run, its exception is the result of the run, and the local files
    are left as the step found them. *)
Lemma raised_is_final {R} (p : prog R) :
  no_try p ->
  forall f w pre ev post e,
    trace (exec p f w) = pre ++ ev :: post ->
    ev_raised ev = Some e ->
    post = [] /\ returned (exec p f w) = inl e
    /\ ev_fs ev = Some (final_fs (exec p f w)).
Proof.
  induction 1 as [R r|R e0|R c k Hk IH|R c k Hk IH|R o k Hk IH|R d k Hk IH];
    intros f w pre ev post e Htr Hev; cbn in Htr |- *.
  - by destruct pre.
  - by destruct pre.
  - destruct (ext_handle c f w) as [[e1|x] w']; cbn in Htr |- *.
    + destruct pre as [|? [|? ?]]; simplify_eq/=. done.
    + destruct pre as [|? pre]; simplify_eq/=. eauto.
  - destruct (shell_handle c f w) as [r w']; cbn in Htr |- *.
    destruct pre as [|? pre]; simplify_eq/=. eauto.
  - destruct (local_sem o f) as [e1|[x f']]; cbn in Htr |- *.
    + destruct pre as [|? [|? ?]]; simplify_eq/=. done.
    + destruct pre as [|? pre]; simplify_eq/=. eauto.
  - destruct pre as [|? pre]; simplify_eq/=. eauto.
Qed.

(** *** Symbolic execution

    A run of the notebook is followed call by call, splitting on what
    the environment answers. *)

Ltac run_simpl :=
  cbn [run bind ext shell local display lift after trace returned final_fs
       final_world app].

Ltac run_step :=
  lazymatch goal with
  | |- context [ext_handle ?c ?f ?w] =>
      let w' := fresh "w" in
      destruct (ext_handle c f w) as [[?e|?x] w']
  | |- context [shell_handle ?c ?f ?w] =>
      let r := fresh "r" in let w' := fresh "w" in
      destruct (shell_handle c f w) as [r w']
  | |- context [match local_sem ?o ?f with inl _ => _ | inr _ => _ end] =>
      let x := fresh "x" in let f' := fresh "f" in
      destruct (local_sem o f) as [?e|[x f']]
  | |- context [lift ?r] =>
      destruct r as [?e|?x] eqn:?
  end;
  run_simpl.

Ltac run_notebook :=
  cbv zeta;
  lazymatch goal with
  | |- context [run ext_handle shell_handle Notebook.notebook ?f ?w] =>
      pattern (run ext_handle shell_handle Notebook.notebook f w)
  end;
  lazymatch goal with
  | |- ?P ?o => change (holds P o)
  end;
  unfold Notebook.notebook, Notebook.repackage, Notebook.extract_cell,
    Notebook.properties_cell, Notebook.package_cell, Notebook.deploy_model,
    Notebook.sample_cell, Notebook.predict, Notebook.delete_endpoint;
  run_simpl; repeat run_step; unfold holds; cbv beta;
  cbn [after trace returned final_fs final_world app].

Ltac not_completed :=
  let r := fresh in let H := fresh in intros [r H]; discriminate H.

(** The steps of any run are an initial part of the pipeline, and the
    whole of it when the run reaches the end. *)
Lemma notebook_steps (f : fs) (w : W) :
  let o := exec Notebook.notebook f w in
  steps_of (trace o) `prefix_of` pipeline /\
  (completed o -> steps_of (trace o) = pipeline).
Proof.
  run_notebook.
  all: split; [eexists; lazy; reflexivity | try not_completed].
  intros _. lazy. reflexivity.
Qed.

(** [C2] The notebook runs as one linear pipeline.  The steps of every
    run are an initial part of the fixed sequence configure, fetch and
    read the dataset, upload the data, submit the job without blocking,
    wait for the job, download and repackage the artifact, upload and
    deploy the archive, send one request, delete the endpoint; the stages
    never go backwards, a run that reaches the end goes through all nine,
    the job is always submitted with [wait=False], the wait comes after
    the submission, and download and deployment come after the wait. *)
Theorem notebook_is_linear_pipeline (f : fs) (w : W) :
  let o := exec Notebook.notebook f w in
  let steps := steps_of (trace o) in
  steps `prefix_of` pipeline
  /\ StronglySorted le (stage <$> steps)
  /\ (completed o ->
      steps = pipeline /\ forall n, (1 <= n <= 9)%nat <-> n ∈ stage <$> steps)
  /\ (forall b, StSubmit b ∈ steps -> b = false)
  /\ (forall pre post, steps = pre ++ StWait :: post -> StSubmit false ∈ pre)
  /\ (forall pre post, steps = pre ++ StDownload :: post -> StWait ∈ pre)
  /\ (forall pre post, steps = pre ++ StDeploy :: post -> StWait ∈ pre).
Proof.
  intros o steps.
  destruct (notebook_steps f w) as [Hpre Hall]. fold o steps in Hpre, Hall.
  assert (Hsplit : forall x y pre post,
             before y x pipeline = true -> steps = pre ++ x :: post -> y ∈ pre).
  { intros x y pre post Hb Hs.
    destruct (prefix_split _ _ _ _ Hpre Hs) as [rest Hfull].
    exact (before_split y x pipeline pre _ Hb Hfull). }
  split_and!.
  - exact Hpre.
  - apply (sorted_prefix _ (stage <$> pipeline)).
    + destruct Hpre as [k ->]. exists (stage <$> k). apply fmap_app.
    + rewrite stages_pipeline.
      repeat (constructor; [|repeat constructor; lia]). constructor.
  - intros Hc. split; [by apply Hall|]. intros n.
    rewrite (Hall Hc), stages_pipeline, list_elem_of_In. simpl. lia.
  - intros b Hb.
    assert (Hin : StSubmit b ∈ pipeline).
    { destruct Hpre as [k ->]. apply elem_of_app. by left. }
    revert Hin. unfold pipeline. rewrite !elem_of_cons, elem_of_nil.
    intros Hin. decompose [or] Hin; by simplify_eq.
  - intros pre post. by apply Hsplit.
  - intros pre post. by apply Hsplit.
  - intros pre post. by apply Hsplit.
Qed.

(** [C6] Nothing in the notebook catches an exception.  In every run, an
    external call that raises is the last step of the run (nothing is
    retried and nothing else is attempted), the exception it raised is,
    unchanged, the result of the run, and the local files are left exactly
    as that call found them. *)
Theorem failures_propagate_unchanged (f : fs) (w : W) pre ev post e :
  let o := exec Notebook.notebook f w in
  trace o = pre ++ ev :: post ->
  ext_raised ev = Some e ->
  no_try Notebook.notebook
  /\ post = []
  /\ returned o = inl e
  /\ ev_fs ev = Some (final_fs o).
Proof.
  intros o Htr Hev. split; [exact no_try_notebook|].
  apply (raised_is_final _ no_try_notebook f w pre ev post e Htr).
  destruct ev as [? ? [?|?]| | |]; try discriminate. exact Hev.
Qed.

Ltac forall_events tac :=
  repeat (apply Forall_cons_2; [tac|]); apply Forall_nil_2.


(** [C10] At most one endpoint is created in a run, exactly one in a run
    that reaches the end.  Every step that creates, calls or deletes an
    endpoint names the endpoint [name_from_base("t5-summarization")]
    returned, which is also the name held by the predictor; a run that
    reaches the end calls it once and deletes it once. *)
Theorem one_endpoint_per_run (f : fs) (w : W) :
  let o := exec Notebook.notebook f w in
  let tr := trace o in
  Forall (endpoint_ok tr) tr
  /\ (count is_deploy tr <= 1)%nat
  /\ (forall g, returned o = inr g ->
        count is_deploy tr = 1%nat /\ count is_invoke tr = 1%nat
        /\ count is_delete tr = 1%nat
        /\ generated_name "t5-summarization" tr
           = Some (endpoint_name (Notebook.g_hf_predictor g))).
Proof.
  run_notebook.
  all: split_and!;
    [ forall_events ltac:(intros n Hn; cbn in Hn; first [discriminate Hn | simplify_eq; reflexivity])
    | lazy; lia
    | intros g Hg; try discriminate Hg ].
  simplify_eq. split_and!; reflexivity.
Qed.

(** [C3] as amended: the mapping handed to the training job is the one the
    notebook writes, unchanged.  It consists of the five training
    hyperparameters (learning rate, batch size, number of epochs,
    subsample percentage, model identifier) and of the two launcher
    settings [training_script] and [config_file]. *)
Theorem hyperparameters_passed_unchanged (f : fs) (w : W) :
  let o := exec Notebook.notebook f w in
  Forall (fun m => m = Notebook.notebook_hyperparameters) (submitted (trace o))
  /\ (completed o -> submitted (trace o) = [Notebook.notebook_hyperparameters])
  /\ dom Notebook.notebook_hyperparameters = training_hyperparameters ∪ launcher_settings
  /\ Notebook.notebook_hyperparameters !! "lr"%string = Some (HFloat 3 (-3))
  /\ Notebook.notebook_hyperparameters !! "batch_size"%string = Some (HInt 2)
  /\ Notebook.notebook_hyperparameters !! "num_epochs"%string = Some (HInt 2)
  /\ Notebook.notebook_hyperparameters !! "subsample"%string = Some (HInt 50)
  /\ Notebook.notebook_hyperparameters !! "pretrained_model_name_or_path"%string
     = Some (HStr "google/flan-t5-large")
  /\ Notebook.notebook_hyperparameters !! "training_script"%string = Some (HStr "train.py")
  /\ Notebook.notebook_hyperparameters !! "config_file"%string = Some (HStr "ds_zero3.yaml").
Proof.
  intros o. split; [|split; [|split_and!; try reflexivity]].
  - subst o. run_notebook.
    all: cbn [submitted omap list_omap hyperparameters Notebook.make_estimator];
      repeat constructor.
  - subst o. run_notebook.
    all: first [not_completed | intros _].
    reflexivity.
Qed.



End Runs.

Section Packaging.

Context {W : Type}.
Variable ext_handle : forall c : ext_call, fs -> W -> result (ext_ret c) * W.
Variable shell_handle : forall c : shell_cmd, fs -> W -> shell_ret c * W.

Abbreviation exec' := (run ext_handle shell_handle).


(** An empty artifact stops the notebook at [contents[-1]]. *)
Lemma repackage_empty (f : fs) (w : W) :
  f !! "model.tar.gz" = Some (Tarball []) ->
  returned (exec' Notebook.repackage f w) = inl IndexError
  /\ final_fs (exec' Notebook.repackage f w) = f.
Proof.
  intros Hf.
  unfold Notebook.repackage, Notebook.extract_cell.
  cbn [run bind ext shell local display lift after trace returned final_fs
       final_world app local_sem].
  rewrite Hf. split; reflexivity.
Qed.



End Packaging.

(** ** The sampled index *)

(** [X1] On a well-formed table with a [dialogue] column, the look-up
    succeeds exactly for the indices [0 .. n-1]. *)
Lemma pick_dialogue_column (df : DataFrame) (col : list string) (i : Z) :
  df_data df !! "dialogue"%string = Some col ->
  Notebook.pick_dialogue df i
  = if 0 <=? i
    then match col !! Z.to_nat i with
         | Some x => inr x
         | None => inl (KeyError (KInt i))
         end
    else inl (KeyError (KInt i)).
Proof.
  intros Hcol. unfold Notebook.pick_dialogue, df_getitem, series_getitem.
  by rewrite Hcol.
Qed.

Lemma pick_dialogue_in_range (df : DataFrame) (i : Z) :
  df_wf df -> is_Some (df_data df !! "dialogue"%string) ->
  (exists d, Notebook.pick_dialogue df i = inr d) <-> 0 <= i < Z.of_nat (df_index df).
Proof.
  intros Hwf [col Hcol]. rewrite (pick_dialogue_column df col i Hcol).
  pose proof (Hwf _ _ Hcol) as Hlen.
  destruct (Z.leb_spec 0 i) as [Hi|Hi].
  - destruct (col !! Z.to_nat i) as [d|] eqn:Hd.
    + apply lookup_lt_Some in Hd. split; [lia|eauto].
    + apply lookup_ge_None in Hd. split; [by intros [d [=]]|lia].
  - split; [by intros [d [=]]|lia].
Qed.

(** The upper bound [randint(0, n)] may draw is not an index of the table. *)
Lemma pick_dialogue_upper_bound (df : DataFrame) :
  df_wf df -> is_Some (df_data df !! "dialogue"%string) ->
  let n := Z.of_nat (shape df).1 in
  randint_contract 0 n n
  /\ Notebook.pick_dialogue df n = inl (KeyError (KInt n)).
Proof.
  intros Hwf [col Hcol] n. split; [unfold randint_contract; lia|].
  rewrite (pick_dialogue_column df col n Hcol).
  pose proof (Hwf _ _ Hcol) as Hlen.
  subst n. cbn [shape fst]. destruct (Z.leb_spec 0 (Z.of_nat (df_index df))); [|lia].
  rewrite Nat2Z.id. by rewrite (proj2 (lookup_ge_None col (df_index df))) by lia.
Qed.

Lemma test_table_wf : df_wf Script.test_table.
Proof.
  intros col s. unfold Script.test_table, Script.table. cbn [df_data df_index].
  rewrite lookup_insert. case_decide; [by intros [= <-]|].
  rewrite lookup_insert. case_decide; [by intros [= <-]|].
  by rewrite lookup_empty.
Qed.

(** [C1] fails on the code: [randint(0, n)] may return [n].  On the test
    table of three rows the draw [3] is within the bounds of the generator,
    the look-up of the dialogue then raises [KeyError], and the notebook
    stops with the endpoint deployed, never called and never deleted. *)
Theorem sampled_index_out_of_range :
  df_wf Script.test_table
  /\ (shape Script.test_table).1 = 3%nat
  /\ Script.sc_draw Script.upper 0 3 = 3
  /\ randint_contract 0 3 3
  /\ Notebook.pick_dialogue Script.test_table 3 = inl (KeyError (KInt 3))
  /\ returned (Script.play Script.upper) = inl (KeyError (KInt 3))
  /\ count is_deploy (trace (Script.play Script.upper)) = 1%nat
  /\ count is_invoke (trace (Script.play Script.upper)) = 0%nat
  /\ count is_delete (trace (Script.play Script.upper)) = 0%nat.
Proof.
  split_and!; try (vm_compute; reflexivity).
  - exact test_table_wf.
  - unfold randint_contract. lia.
Qed.

(** ** The scripted runs *)

Lemma fair_completes : completed (Script.play Script.fair).
Proof.
  unfold completed. destruct (returned (Script.play Script.fair)) as [e|g] eqn:H.
  - vm_compute in H. discriminate H.
  - by exists g.
Qed.

(** A complete run goes through the whole pipeline. *)
Lemma notebook_is_linear_pipeline_witness :
  completed (Script.play Script.fair)
  /\ steps_of (trace (Script.play Script.fair)) = pipeline.
Proof.
  split; [exact fair_completes|].
  destruct (notebook_is_linear_pipeline (Script.ext_handle Script.fair)
              (Script.shell_handle Script.fair) Script.checkout 0%nat)
    as (_ & _ & Hall & _).
  exact (proj1 (Hall fair_completes)).
Defined.

(** A complete run submits the mapping of the notebook, once. *)
Lemma hyperparameters_passed_unchanged_witness :
  completed (Script.play Script.fair)
  /\ submitted (trace (Script.play Script.fair)) = [Notebook.notebook_hyperparameters].
Proof.
  split; [exact fair_completes|].
  destruct (hyperparameters_passed_unchanged (Script.ext_handle Script.fair)
              (Script.shell_handle Script.fair) Script.checkout 0%nat)
    as (_ & Hall & _).
  exact (Hall fair_completes).
Defined.

(** [C3] as stated fails: the submitted mapping has entries beyond the five
    training hyperparameters. *)
Lemma submitted_mapping_has_launcher_settings :
  ~ Forall (fun m => dom m = training_hyperparameters)
      (submitted (trace (Script.play Script.fair))).
Proof.
  assert (Hs : submitted (trace (Script.play Script.fair))
               = [Notebook.notebook_hyperparameters]) by (vm_compute; reflexivity).
  rewrite Hs. intros [Hdom _]%Forall_cons_1.
  assert (Hin : "training_script"%string ∈ dom Notebook.notebook_hyperparameters).
  { apply elem_of_dom. eexists. reflexivity. }
  rewrite Hdom in Hin. unfold training_hyperparameters in Hin.
  rewrite !elem_of_union, !elem_of_singleton in Hin.
  decompose [or] Hin; discriminate.
Qed.



(** A complete run creates, calls and deletes one endpoint. *)
Lemma one_endpoint_per_run_witness :
  completed (Script.play Script.fair)
  /\ count is_deploy (trace (Script.play Script.fair)) = 1%nat
  /\ count is_invoke (trace (Script.play Script.fair)) = 1%nat
  /\ count is_delete (trace (Script.play Script.fair)) = 1%nat.
Proof.
  split; [exact fair_completes|].
  destruct fair_completes as [g Hg].
  destruct (one_endpoint_per_run (Script.ext_handle Script.fair)
              (Script.shell_handle Script.fair) Script.checkout 0%nat)
    as (_ & _ & Hall).
  destruct (Hall g Hg) as (Hd & Hi & Hx & _). auto.
Defined.

(** The failure of the training job ends the run at the wait. *)
Lemma failures_propagate_unchanged_witness :
  trace (Script.play Script.job_fails)
  = removelast (trace (Script.play Script.job_fails)) ++ [Script.failed_wait]
  /\ ext_raised Script.failed_wait = Some Script.wait_failure
  /\ returned (Script.play Script.job_fails) = inl Script.wait_failure
  /\ ev_fs Script.failed_wait = Some (final_fs (Script.play Script.job_fails)).
Proof.
  assert (Htr : trace (Script.play Script.job_fails)
                = removelast (trace (Script.play Script.job_fails))
                  ++ [Script.failed_wait]) by (vm_compute; reflexivity).
  assert (Hev : ext_raised Script.failed_wait = Some Script.wait_failure)
    by reflexivity.
  destruct (failures_propagate_unchanged (Script.ext_handle Script.job_fails)
              (Script.shell_handle Script.job_fails) Script.checkout 0%nat
              _ _ _ _ Htr Hev) as (_ & _ & Hret & Hfs).
  auto.
Defined.



(** * Further properties *)

(** ** Reading the answer of the endpoint *)

Lemma py_index_first (n : nat) : py_index (S n) 0 = Some 0%nat.
Proof.
  unfold py_index. destruct (Z.ltb_spec 0 (Z.of_nat (S n))); [reflexivity|lia].
Qed.

(** [X2] The summary is read exactly from an answer that is an object whose
    [outputs] is a list starting with an object that has a [summary_text];
    what else the answer holds is ignored. *)
Theorem read_summary_succeeds_iff (resp v : json) :
  Notebook.read_summary resp = inr v
  <-> exists fields first rest,
        resp = JObj fields
        /\ assoc "outputs" fields = Some (JArr (JObj first :: rest))
        /\ assoc "summary_text" first = Some v.
Proof.
  unfold Notebook.read_summary, getitem_key, getitem_idx, rbind, ok, raise.
  split.
  - destruct resp as [| | | |?|fields]; try by intros [=].
    destruct (assoc "outputs" fields) as [outs|] eqn:Hout; [|intros [=]].
    destruct outs as [| | |s|items|?]; try by intros [=].
    + destruct (py_index (String.length s) 0) as [n|]; cbn; [|intros [=]].
      destruct (String.get n s); cbn; intros [=].
    + destruct items as [|first rest]; cbn [length]; [intros [=]|].
      rewrite py_index_first. cbn.
      destruct first as [| | | |?|ffields]; try by intros [=].
      destruct (assoc "summary_text" ffields) as [x|] eqn:Hs; [|intros [=]].
      intros ?. simplify_eq. by exists fields, ffields, rest.
  - intros (fields & first & rest & -> & Hout & Hs).
    rewrite Hout. cbn [length]. rewrite py_index_first. cbn. by rewrite Hs.
Qed.

(** ** What the archive holds *)



(** ** Directory name and base name *)

Lemma string_of_list_app (a b : list ascii) :
  String.string_of_list_ascii (a ++ b)
  = (String.string_of_list_ascii a ++ String.string_of_list_ascii b)%string.
Proof. induction a as [|x a IH]; [done|]. cbn. by rewrite IH. Qed.

Lemma sep_split (l : list ascii) : l = before_sep l ++ after_sep l.
Proof.
  induction l as [|c l IH]; [done|]. cbn. destruct (is_sep c); [done|].
  cbn. by rewrite <- IH.
Qed.

Lemma strip_split (l : list ascii) :
  exists s, forallb is_sep s = true /\ l = s ++ strip_sep l.
Proof.
  induction l as [|c l (s & Hs & IH)]; [by exists []|].
  cbn. destruct (is_sep c) eqn:Hc.
  - exists (c :: s). cbn. rewrite Hc, Hs. split; [done|]. by rewrite <- IH.
  - by exists [].
Qed.

Lemma forallb_rev (s : list ascii) :
  forallb is_sep s = true -> forallb is_sep (rev s) = true.
Proof.
  rewrite !forallb_forall. intros H x Hx. apply H. by apply in_rev.
Qed.

Lemma strip_sep_head (l : list ascii) :
  forallb is_sep l = false ->
  exists c t, strip_sep l = c :: t /\ is_sep c = false.
Proof.
  induction l as [|c l IH]; [done|]. cbn. destruct (is_sep c) eqn:Hc; [apply IH|].
  intros _. by exists c, l.
Qed.

(** [X15] A path is its directory name, a run of separators and its base name.
    The base name has no separator, and the directory name does not end
    with one unless it consists of separators only, in which case the run
    is empty. *)
Theorem path_splits (p : string) :
  exists seps,
    forallb is_sep (String.list_ascii_of_string seps) = true
    /\ p = (dirname p ++ seps ++ basename p)%string
    /\ mentions "/" (basename p) = false
    /\ ((forallb is_sep (String.list_ascii_of_string (dirname p)) = true /\ seps = "")
        \/ (exists d c, dirname p = (d ++ String c "")%string /\ is_sep c = false)).
Proof.
  pose (r := rev (String.list_ascii_of_string p)).
  assert (Hp : p = (String.string_of_list_ascii (rev (after_sep r))
                    ++ basename p)%string).
  { unfold basename. fold r. rewrite <- string_of_list_app, <- rev_app_distr.
    rewrite <- sep_split. unfold r. rewrite rev_involutive.
    by rewrite String.string_of_list_ascii_of_string. }
  unfold dirname. fold r. destruct (forallb is_sep (after_sep r)) eqn:Hall.
  - exists ""%string. split_and!; [done|exact Hp|apply basename_no_sep|].
    left. rewrite String.list_ascii_of_string_of_list_ascii.
    split; [by apply forallb_rev|done].
  - destruct (strip_split (after_sep r)) as (s & Hs & Hsplit).
    exists (String.string_of_list_ascii (rev s)).
    rewrite String.list_ascii_of_string_of_list_ascii.
    split_and!; [by apply forallb_rev| |apply basename_no_sep|].
    + rewrite <- append_assoc, <- string_of_list_app, <- rev_app_distr, <- Hsplit.
      exact Hp.
    + right. destruct (strip_sep_head _ Hall) as (c & t & -> & Hc).
      exists (String.string_of_list_ascii (rev t)), c. split; [|exact Hc].
      cbn [rev]. by rewrite string_of_list_app.
Qed.

(** ** The packaging cells, for every state of the disk *)

Section PackagingEdges.

Context {W : Type}.
Variable ext_handle : forall c : ext_call, fs -> W -> result (ext_ret c) * W.
Variable shell_handle : forall c : shell_cmd, fs -> W -> shell_ret c * W.

Abbreviation exec_cells := (run ext_handle shell_handle).

Ltac cells_simpl :=
  cbn [run bind ext shell local display lift after trace returned final_fs
       final_world app local_sem ok raise].



(** [X13] A download that fails is not noticed by the download cell.  Without a
    [model.tar.gz] on disk the failure shows at [tarfile.open], as a
    [FileNotFoundError], and nothing is written. *)
Theorem failed_download_shows_at_open (f : fs) (w w' : W) (job : string) :
  shell_handle (AwsS3CpModelData job ".") f w = (None, w') ->
  f !! "model.tar.gz"%string = None ->
  let o := exec_cells (download_and_repackage job) f w in
  returned o = inl (FileNotFoundError "model.tar.gz")
  /\ final_fs o = f
  /\ trace o = [EvShell f (AwsS3CpModelData job ".") None;
               EvLocal f (TarOpen "model.tar.gz")
                 (Some (FileNotFoundError "model.tar.gz"))].
Proof.
  intros Hsh Hf. unfold download_and_repackage, Notebook.repackage,
    Notebook.extract_cell.
  cells_simpl. rewrite Hsh. cbn [shell_effect]. cells_simpl. rewrite Hf.
  cells_simpl. done.
Qed.


End PackagingEdges.

(** ** More on the runs of the notebook *)






Lemma packaging_steps (f2 f5 : fs) (model_id : string) (x : unit) :
  local_sem (Mv "src/model.tar.gz" "model.tar.gz")
    (tar_create "src/" "model.tar.gz" "inference/"
       (<["src/inference/serving.properties"%string :=
          Raw (Notebook.serving_properties model_id)]> f2))
  = inr (x, f5) ->
  exists package,
    f5 !! "model.tar.gz"%string = Some (Tarball package)
    /\ Forall (fun m => String.prefix "inference/" m.1 = true) package
    /\ ("inference/serving.properties"%string,
        Raw (Notebook.serving_properties model_id)) ∈ package.
Proof.
  cbn [local_sem]. rewrite tar_create_lookup. unfold ok. intros ?. simplify_eq.
  eexists. split_and!.
  - apply lookup_insert_eq.
  - apply tar_members_rooted.
  - apply tar_members_elem; [apply lookup_insert_eq|reflexivity].
Qed.

Lemma wget_lookup (url dest : string) (r : option string) (f : fs) (p : string) :
  shell_effect (Wget url dest) r f !! p
  = match r with
    | Some text => if decide (dest = p) then Some (Raw text) else f !! p
    | None => f !! p
    end.
Proof.
  destruct r as [text|]; cbn; [|done]. rewrite lookup_insert. by repeat case_decide.
Qed.

Section MoreRuns.

Context {W : Type}.
Variable ext_handle : forall c : ext_call, fs -> W -> result (ext_ret c) * W.
Variable shell_handle : forall c : shell_cmd, fs -> W -> shell_ret c * W.

Abbreviation exec_nb := (run ext_handle shell_handle).

Ltac sym_simpl :=
  cbn [run bind ext shell local display lift after trace returned final_fs
       final_world app].

Ltac sym_step :=
  lazymatch goal with
  | |- context [ext_handle ?c ?f ?w] =>
      let w' := fresh "w" in
      destruct (ext_handle c f w) as [[?e|?x] w']
  | |- context [shell_handle ?c ?f ?w] =>
      let r := fresh "r" in let w' := fresh "w" in
      destruct (shell_handle c f w) as [r w']
  | |- context [match local_sem ?o ?f with inl _ => _ | inr _ => _ end] =>
      let x := fresh "x" in let f' := fresh "f" in
      destruct (local_sem o f) as [?e|[x f']] eqn:?
  | |- context [lift ?r] =>
      destruct r as [?e|?x] eqn:?
  end;
  sym_simpl.

Ltac sym_notebook :=
  cbv zeta;
  lazymatch goal with
  | |- context [run ext_handle shell_handle Notebook.notebook ?f ?w] =>
      pattern (run ext_handle shell_handle Notebook.notebook f w)
  end;
  lazymatch goal with
  | |- ?P ?o => change (holds P o)
  end;
  unfold Notebook.notebook, Notebook.repackage, Notebook.extract_cell,
    Notebook.properties_cell, Notebook.package_cell, Notebook.deploy_model,
    Notebook.sample_cell, Notebook.predict, Notebook.delete_endpoint;
  sym_simpl; repeat sym_step; unfold holds; cbv beta;
  cbn [after trace returned final_fs final_world app].

Ltac each_event tac :=
  repeat (apply Forall_cons_2; [tac|]); apply Forall_nil_2.


(** [X5] The training job runs under the execution role, on one
    [ml.g5.24xlarge], without blocking, and its [train] channel is the
    location the upload of the training file returned. *)
Theorem training_job_inputs (f : fs) (w : W) :
  let tr := trace (exec_nb Notebook.notebook f w) in
  Forall (job_ok tr) tr.
Proof.
  sym_notebook.
  all: each_event ltac:(first
         [ exact I
         | split_and!; [reflexivity|eexists; split; reflexivity|reflexivity..] ]).
Qed.


(** [X3] The dialogue sent to the endpoint is the cell of the [dialogue] column
    of the test table at the index drawn by [randint(0, n)], [n] being the
    number of rows of that table. *)
Theorem request_is_sampled_row (f : fs) (w : W) :
  let tr := trace (exec_nb Notebook.notebook f w) in
  Forall (sampled_ok tr) tr.
Proof.
  sym_notebook.
  all: each_event ltac:(first
         [ exact I
         | do 3 eexists; split_and!; [reflexivity|reflexivity|eassumption|reflexivity] ]).
Qed.

(** [X7] Nothing is uploaded and no job is submitted unless the first dialogue
    and the first summary of the training table could be looked up: an empty
    training table, or one without these columns, stops the notebook before
    it stores anything. *)
Theorem inspection_guards_uploads (f : fs) (w : W) :
  let tr := trace (exec_nb Notebook.notebook f w) in
  Forall (guarded tr) tr.
Proof.
  sym_notebook.
  all: each_event ltac:(first
         [ exact I
         | do 3 eexists; split_and!; [reflexivity|eassumption|eassumption] ]).
Qed.

(** [X9] What is uploaded as the deployment package is the archive the packaging
    cells have just built. *)
Theorem package_is_what_is_uploaded (f : fs) (w : W) :
  Forall package_uploaded (trace (exec_nb Notebook.notebook f w)).
Proof.
  sym_notebook.
  all: each_event ltac:(first
         [ exact I
         | solve [intros H; discriminate H]
         | intros _;
           repeat match goal with
                  | H : local_sem (ExtractAll _ _) _ = inr _ |- _ =>
                      cbn [local_sem] in H; unfold ok in H; simplify_eq
                  | H : local_sem (WriteText _ _) _ = inr _ |- _ =>
                      cbn [local_sem] in H; unfold ok in H; simplify_eq
                  | H : local_sem (TarCreate _ _ _) _ = inr _ |- _ =>
                      cbn [local_sem] in H; unfold ok in H; simplify_eq
                  end;
           match goal with
           | H : local_sem (Mv _ _) _ = inr _ |- _ =>
               destruct (packaging_steps _ _ _ _ H) as (package & ? & ? & ?)
           end;
           eexists _, _; split_and!; eassumption ]).
Qed.

(** [X8] Each table is read from the file its fetch left on disk: the text
    just fetched or, when the fetch wrote nothing, the file that was at the
    path before. *)
Theorem tables_are_read_from_fetched_files (f : fs) (w : W) :
  let tr := trace (exec_nb Notebook.notebook f w) in
  Forall (read_sees tr) tr.
Proof.
  sym_notebook.
  all: each_event ltac:(first
         [ exact I
         | do 3 eexists; split;
           [ repeat first [apply list_elem_of_here | apply list_elem_of_further]
           | rewrite !wget_lookup;
             repeat match goal with
                    | r : shell_ret (Wget _ _) |- _ => destruct r
                    end;
             repeat case_decide;
             unfold Notebook.train_path, Notebook.test_path in *;
             solve [reflexivity | discriminate | congruence] ] ]).
Qed.


End MoreRuns.

(** ** The extra properties on the scripted runs *)

Lemma pick_dialogue_in_range_witness :
  df_wf Script.test_table
  /\ is_Some (df_data Script.test_table !! "dialogue"%string)
  /\ ((exists d, Notebook.pick_dialogue Script.test_table 2 = inr d) <-> 0 <= 2 < 3).
Proof.
  assert (Hcol : is_Some (df_data Script.test_table !! "dialogue"%string)).
  { eexists. apply lookup_insert_eq. }
  split_and!; [exact test_table_wf|exact Hcol|].
  exact (pick_dialogue_in_range Script.test_table 2 test_table_wf Hcol).
Defined.


Lemma failed_download_shows_at_open_witness :
  Offline.shell_handle (AwsS3CpModelData "job" ".") Script.checkout 0%nat = (None, 1%nat)
  /\ Script.checkout !! "model.tar.gz"%string = None
  /\ returned Offline.repack_missing = inl (FileNotFoundError "model.tar.gz")
  /\ final_fs Offline.repack_missing = Script.checkout.
Proof.
  assert (Hsh : Offline.shell_handle (AwsS3CpModelData "job" ".") Script.checkout 0%nat
                = (None, 1%nat)) by reflexivity.
  assert (Hf : Script.checkout !! "model.tar.gz"%string = None)
    by (vm_compute; reflexivity).
  destruct (failed_download_shows_at_open (Script.ext_handle Script.fair)
              Offline.shell_handle Script.checkout 0%nat 1%nat "job" Hsh Hf)
    as (Hret & Hfs & _).
  split_and!; [exact Hsh|exact Hf|exact Hret|exact Hfs].
Defined.


